(** * Containerized ML anomaly detector: trainer script and prediction service

    A shallow embedding of [anomaly_model.py] (the offline trainer) and
    [detection_service.py] (the FastAPI service), with the properties of
    the written specification stated and proved over it.

    What lives outside the two source files is kept abstract and passed in:
    the fitted estimator is a record holding its [predict] method, the
    artifact loader [joblib.load] is a function from paths to outcomes, the
    random generator and the fitting routine of the trainer are section
    variables.  Python floats are IEEE binary64 numbers ([PrimFloat.float]);
    Python's unbounded integers are [Z]. *)

From Stdlib Require Import ZArith List String Bool Lia.
From Stdlib Require Import PrimFloat FloatOps SpecFloat FloatAxioms.
Import ListNotations.

Local Open Scope string_scope.
Local Open Scope Z_scope.

(** ** Python values and exceptions *)

Module Py.

(** The exception classes the two scripts can meet.  All of them derive from
    [Exception] except the two system-exiting ones, which derive from
    [BaseException] only and therefore pass through [except Exception]. *)
Inductive py_class : Type :=
| FileNotFoundError
| ValueError
| TypeError
| IndexError
| OverflowError
| AttributeError
| OtherException (name : string)
| KeyboardInterrupt
| SystemExit.

(** An exception raised by library code: its class and what [str(e)] gives. *)
Record py_error : Type := mkError { err_class : py_class; err_str : string }.

Definition isinstance_Exception (e : py_error) : bool :=
  match err_class e with
  | KeyboardInterrupt | SystemExit => false
  | _ => true
  end.

Definition isinstance_FileNotFoundError (e : py_error) : bool :=
  match err_class e with
  | FileNotFoundError => true
  | _ => false
  end.

(** What a handler can raise: FastAPI's [HTTPException], or a library
    exception that no [except] clause caught. *)
Inductive raised : Type :=
| HTTPException (status_code : Z) (detail : string)
| Propagated (e : py_error).

(** What the programs do besides returning: lines printed to the log, calls
    of a fitted estimator's [predict] (with the array passed) and calls of an
    estimator's [fit] (with its two constructor arguments and the data). *)
Inductive event : Type :=
| Print (line : string)
| ModelPredict (X : list (list float))
| ModelFit (contamination : float) (random_state : Z) (X : list (list float)).

Inductive outcome (E A : Type) : Type :=
| Return (a : A)
| Raise (e : E).
Arguments Return {E A} a.
Arguments Raise {E A} e.

(** Computations: the events so far, then a value or an exception. *)
Definition M (E A : Type) : Type := (list event * outcome E A)%type.

Definition ret {E A} (a : A) : M E A := ([], Return a).
Definition raise {E A} (e : E) : M E A := ([], Raise e).
Definition emit {E} (ev : event) : M E unit := ([ev], Return tt).
Definition print {E} (line : string) : M E unit := emit (Print line).

Definition bind {E A B} (c : M E A) (k : A -> M E B) : M E B :=
  match c with
  | (tr, Return a) => let (tr', r) := k a in ((tr ++ tr')%list, r)
  | (tr, Raise e) => (tr, Raise e)
  end.

(** [try: body / except Exception as e: handler e]. Exceptions that do not
    derive from [Exception] leave the block unhandled. *)
Definition try_except_Exception {A}
    (body : M py_error A) (handler : py_error -> M raised A) : M raised A :=
  match body with
  | (tr, Return a) => (tr, Return a)
  | (tr, Raise e) =>
      if isinstance_Exception e
      then let (tr', r) := handler e in ((tr ++ tr')%list, r)
      else (tr, Raise (Propagated e))
  end.

End Py.
Export Py.

Declare Scope py_scope.
Delimit Scope py_scope with py.
Notation "x <- c ;; k" := (bind c (fun x => k))
  (at level 61, c at next level, right associativity) : py_scope.
Notation "c ;;; k" := (bind c (fun _ => k))
  (at level 61, right associativity) : py_scope.
Local Open Scope py_scope.

(** ** NumPy scalars *)

(** An element of the array an estimator returns: an integer or a floating
    scalar (scikit-learn's outlier detectors return integer arrays). *)
Inductive scalar : Type :=
| NpInt (z : Z)
| NpFloat (f : float).

(** The binary64 number nearest to an integer. *)
Definition float_of_Z (k : Z) : float :=
  SF2Prim (binary_normalize prec emax k 0 false).

(** [prediction == k] for an integer literal [k]: integers compare as
    integers, a floating scalar compares with [k] converted to binary64. *)
Definition scalar_eq_int (v : scalar) (k : Z) : bool :=
  match v with
  | NpInt z => z =? k
  | NpFloat f => PrimFloat.eqb f (float_of_Z k)
  end.

(** [int(prediction)]: the identity on integers, truncation toward zero on
    finite floats, [ValueError] on NaN and [OverflowError] on infinities. *)
Definition py_int (v : scalar) : M py_error Z :=
  match v with
  | NpInt z => ret z
  | NpFloat f =>
      match Prim2SF f with
      | S754_zero _ => ret 0
      | S754_finite s m e =>
          let mag := Z.shiftl (Z.pos m) e in
          ret (if s then - mag else mag)
      | S754_infinity _ =>
          raise (mkError OverflowError "cannot convert float infinity to integer")
      | S754_nan =>
          raise (mkError ValueError "cannot convert float NaN to integer")
      end
  end.

(** [np.array(data).reshape(1, -1)]: one row holding all the elements; NumPy
    refuses to infer the second dimension of an empty array. *)
Definition reshape_1_m1 (data : list float) : M py_error (list (list float)) :=
  match data with
  | [] => raise (mkError ValueError
                   "cannot reshape array of size 0 into shape (1,newaxis)")
  | _ => ret [data]
  end.

(** [a[0]] on a one-dimensional array. *)
Definition index0 (a : list scalar) : M py_error scalar :=
  match a with
  | [] => raise (mkError IndexError
                   "index 0 is out of bounds for axis 0 with size 0")
  | v :: _ => ret v
  end.

(** ** The prediction service ([detection_service.py]) *)

Module Service.

Definition MODEL_PATH : string := "anomaly_detector.pkl".

(** The object behind the global [model]: only its [predict] method is used.
    The method receives a 2-D array and returns an array of scalars, or
    raises. *)
Record Model : Type := mkModel {
  predict : list (list float) -> outcome py_error (list scalar)
}.

(** [model.predict(X)]: the call is recorded, then the estimator answers. *)
Definition model_predict (m : Model) (X : list (list float))
  : M py_error (list scalar) :=
  ([ModelPredict X], predict m X).

(** The process-wide state: the global [model], [None] until loaded. *)
Record server_state : Type := mkState { model : option Model }.

(** [joblib.load] together with the file system it reads: for a path, the
    unpickled object (which may itself be Python's [None]) or an exception. *)
Definition loader : Type := string -> outcome py_error (option Model).

(** Module initialisation, lines 8-19: [model = None], then the guarded load.
    The result is the state the handlers run in, or the exception that
    aborted the import. *)
Definition startup (joblib_load : loader) : M py_error server_state :=
  match joblib_load MODEL_PATH with
  | Return obj =>
      print ("Successfully loaded model from " ++ MODEL_PATH) ;;;
      ret (mkState obj)
  | Raise e =>
      if isinstance_FileNotFoundError e then
        print ("ERROR: Model file '" ++ MODEL_PATH
               ++ "' not found. Prediction service will be non-functional.") ;;;
        ret (mkState None)
      else if isinstance_Exception e then
        print ("ERROR: Failed to load model artifact due to: " ++ err_str e) ;;;
        ret (mkState None)
      else raise e
  end.

Definition app_title : string := "Containerized Anomaly Detection API".

(** The pydantic schema: [data: List[float]] with [min_length=2] and
    [max_length=2]. *)
Record PredictionRequest : Type := mkRequest { data : list float }.

Definition min_length : nat := 2.
Definition max_length : nat := 2.

Definition validate (payload : list float) : option PredictionRequest :=
  if ((min_length <=? List.length payload)%nat
      && (List.length payload <=? max_length)%nat)%bool
  then Some (mkRequest payload)
  else None.

(** The dictionary [predict_anomaly] returns. *)
Record PredictionResponse : Type := mkPrediction {
  status : string;
  prediction_score : Z;
  input_data : list float;
  message : string
}.

(** The dictionary [health_check] returns. *)
Record HealthResponse : Type := mkHealth {
  health_status : string;
  service : string;
  model_loaded : bool;
  health_message : string
}.

Definition DETAIL_NOT_LOADED : string :=
  "Model artifact not loaded. Service unavailable.".
Definition DETAIL_INTERNAL : string :=
  "Internal processing error during prediction.".
Definition DETAIL_HEALTH : string :=
  "Service is running, but the ML model failed to load.".

(** Lines 50-63, the body of the [try] block. *)
Definition predict_body (m : Model) (request : PredictionRequest)
  : M py_error PredictionResponse :=
  input <- reshape_1_m1 (data request) ;;
  out <- model_predict m input ;;
  prediction <- index0 out ;;
  let status := if scalar_eq_int prediction (-1)
                then "Anomaly Detected" else "Normal Traffic" in
  score <- py_int prediction ;;
  ret {| status := status;
         prediction_score := score;
         input_data := data request;
         message := "Prediction successful. Score of -1 indicates an anomaly." |}.

(** Lines 64-67, the [except Exception as e] clause. *)
Definition predict_handler (e : py_error) : M raised PredictionResponse :=
  print ("Prediction failed due to internal error: " ++ err_str e) ;;;
  raise (HTTPException 500 DETAIL_INTERNAL).

(** [predict_anomaly], lines 39-67. *)
Definition predict_anomaly (st : server_state) (request : PredictionRequest)
  : M raised PredictionResponse :=
  match model st with
  | None => raise (HTTPException 503 DETAIL_NOT_LOADED)
  | Some m => try_except_Exception (predict_body m request) predict_handler
  end.

(** [health_check], lines 72-88. *)
Definition health_check (st : server_state) : M raised HealthResponse :=
  let model_loaded_status :=
    match model st with None => false | Some _ => true end in
  if negb model_loaded_status
  then raise (HTTPException 503 DETAIL_HEALTH)
  else ret {| health_status := "OK";
              service := app_title;
              model_loaded := model_loaded_status;
              health_message :=
                "Service is running and ML model is operational." |}.

(** *** The framework around the handlers *)

Inductive http_body : Type :=
| JsonPrediction (r : PredictionResponse)
| JsonHealth (r : HealthResponse)
| JsonDetail (detail : string)
| JsonValidationErrors
| PlainText (text : string).

Record http_response : Type := mkResponse {
  code : Z;
  body : http_body
}.

(** FastAPI answers a body that fails the schema with 422 and never calls
    the handler. *)
Definition HTTP_422_UNPROCESSABLE_ENTITY : Z := 422.

(** The framework renders a returned dictionary with
    [json.dumps(..., allow_nan=False)]: NaN and the infinities are not JSON
    and make the rendering raise. *)
Definition json_compliant (x : float) : bool := PrimFloat.is_finite x.

Definition renderable (b : http_body) : bool :=
  match b with
  | JsonPrediction r => forallb json_compliant (input_data r)
  | _ => true
  end.

Definition INTERNAL_SERVER_ERROR : http_response :=
  mkResponse 500 (PlainText "Internal Server Error").

(** How the framework turns a handler's outcome into a response: a returned
    dictionary that renders is a 200, an [HTTPException] carries its own
    status and detail, any other [Exception] (one raised while rendering
    included) is a bare 500, and an exception outside [Exception] leaves the
    application without a response. *)
Definition respond {A} (wrap : A -> http_body) (o : outcome raised A)
  : option http_response :=
  match o with
  | Return a =>
      Some (if renderable (wrap a) then mkResponse 200 (wrap a)
            else INTERNAL_SERVER_ERROR)
  | Raise (HTTPException s d) => Some (mkResponse s (JsonDetail d))
  | Raise (Propagated e) =>
      if isinstance_Exception e then Some INTERNAL_SERVER_ERROR else None
  end.

(** [POST /predict] with body [{"data": payload}]. *)
Definition post_predict (st : server_state) (payload : list float)
  : list event * option http_response :=
  match validate payload with
  | None =>
      ([], Some (mkResponse HTTP_422_UNPROCESSABLE_ENTITY JsonValidationErrors))
  | Some request =>
      let (tr, o) := predict_anomaly st request in
      (tr, respond JsonPrediction o)
  end.

(** [GET /health]. *)
Definition get_health (st : server_state) : list event * option http_response :=
  let (tr, o) := health_check st in (tr, respond JsonHealth o).

(** The estimator was called somewhere in a trace. *)
Definition invoked (ev : event) : bool :=
  match ev with ModelPredict _ => true | _ => false end.

Definition model_invoked (tr : list event) : bool := existsb invoked tr.

(** A response status in the 4xx range. *)
Definition client_error (r : http_response) : bool :=
  (400 <=? code r) && (code r <=? 499).

End Service.

(** ** The trainer ([anomaly_model.py]) *)

Module Trainer.

Import Service.

Definition matrix : Type := list (list float).

(** [c * X], [X + c] and [X - c] with a Python number [c]: NumPy applies the
    operation to every element, in binary64. *)
Definition scale (c : float) (X : matrix) : matrix :=
  map (map (fun x => PrimFloat.mul c x)) X.
Definition add_scalar (X : matrix) (c : float) : matrix :=
  map (map (fun x => PrimFloat.add x c)) X.
Definition sub_scalar (X : matrix) (c : float) : matrix :=
  map (map (fun x => PrimFloat.sub x c)) X.

Definition same_width (A B : matrix) : bool :=
  match map (@List.length float) (A ++ B)%list with
  | [] => true
  | w :: ws => forallb (Nat.eqb w) ws
  end.

(** [np.r_[A, B]] on two 2-D arrays: the rows of [A], then the rows of [B];
    NumPy refuses arrays whose widths differ. *)
Definition r_ (A B : matrix) : M py_error matrix :=
  if same_width A B then ret (A ++ B)%list
  else raise (mkError ValueError
    "all the input array dimensions except for the concatenation axis must match exactly").

(** The literals of the script, as the binary64 numbers Python reads. *)
Definition NOISE_SCALE : float := 0x1.3333333333333p-2%float.     (* 0.3 *)
Definition CONTAMINATION : float := 0x1.47ae147ae147bp-6%float.   (* 0.02 *)
Definition SEED : Z := 42.
Definition LOW : float := (-6)%float.
Definition HIGH : float := 6%float.

Section Script.

(** [np.random.RandomState]: the generator's state is threaded through the
    draws. [randn s r c] is [rng.randn(r, c)], [uniform s low high r c] is
    [rng.uniform(low=low, high=high, size=(r, c))]. *)
Variable rng_state : Type.
Variable RandomState : Z -> rng_state.
Variable randn : rng_state -> nat -> nat -> matrix * rng_state.
Variable uniform : rng_state -> float -> float -> nat -> nat -> matrix * rng_state.

(** [IsolationForest(contamination=c, random_state=s).fit(X)]: the fitted
    estimator, or the exception the library raised. *)
Variable fit : float -> Z -> matrix -> outcome py_error Model.

Definition model_fit (c : float) (s : Z) (X : matrix) : M py_error Model :=
  ([ModelFit c s X], fit c s X).

(** Lines 8-29: data generation and fitting.  Returns [X_data] and the
    fitted [model]. *)
Definition train : M py_error (matrix * Model) :=
  let rng := RandomState SEED in
  let (noise, rng) := randn rng 1000 2 in
  let X_normal := scale NOISE_SCALE noise in
  X_normal <- r_ (add_scalar X_normal 2) (sub_scalar X_normal 2) ;;
  let (X_abnormal, rng) := uniform rng LOW HIGH 20 2 in
  X_data <- r_ X_normal X_abnormal ;;
  print "Training Isolation Forest model..." ;;;
  model <- model_fit CONTAMINATION SEED X_data ;;
  print "Training complete." ;;;
  ret (X_data, model).

End Script.

(** A matrix of [r] rows of [c] entries each. *)
Definition has_shape (X : matrix) (r c : nat) : bool :=
  (List.length X =? r)%nat && forallb (fun row => (List.length row =? c)%nat) X.

(** Every entry lies in the half-open interval [[low, high)]. *)
Definition within (low high : float) (X : matrix) : bool :=
  forallb (forallb (fun x => PrimFloat.leb low x && PrimFloat.ltb x high)) X.

(** Every entry lies in the closed interval [[low, high]]. *)
Definition within_closed (low high : float) (X : matrix) : bool :=
  forallb (forallb (fun x => PrimFloat.leb low x && PrimFloat.leb x high)) X.

(** The training set in the words of the specification, to be compared with
    the [X_data] of the script: 1000 majority samples around (+2, +2) and 1000
    around (-2, -2), both obtained from the noise scaled by 0.3, followed by
    the minority samples. *)
Definition spec_training_set (noise scattered : matrix) : matrix :=
  (map (map (fun n => (0x1.3333333333333p-2 * n + 2)%float)) noise
   ++ map (map (fun n => (0x1.3333333333333p-2 * n - 2)%float)) noise
   ++ scattered)%list.

(** The calls of [fit] recorded in a trace. *)
Fixpoint fit_calls (tr : list event) : list (float * Z * matrix) :=
  match tr with
  | [] => []
  | ModelFit c s X :: tr' => (c, s, X) :: fit_calls tr'
  | _ :: tr' => fit_calls tr'
  end.

End Trainer.

(** ** Concrete estimators, artifacts and generators

    Used to run the definitions above on explicit inputs. *)

Module Examples.

Import Service Trainer.

(** The largest finite binary32 number. *)
Definition FLT_MAX : float := 0x1.fffffep+127%float.

(** A box classifier that checks its input first, as array-validating
    libraries do: entries that are not finite binary32 numbers are refused
    with a [ValueError]; a row is an inlier when both features are below 4
    in absolute value. *)
Definition box_model : Model :=
  mkModel (fun X =>
    if forallb (forallb (fun x => PrimFloat.leb (PrimFloat.abs x) FLT_MAX)) X
    then Return (map (fun row =>
                        if forallb (fun x => PrimFloat.ltb (PrimFloat.abs x) 4) row
                        then NpInt 1 else NpInt (-1)) X)
    else Raise (mkError ValueError
      "Input X contains infinity or a value too large for dtype('float32').")).

(** An estimator that answers [v] for every row. *)
Definition constant_model (v : scalar) : Model :=
  mkModel (fun X => Return (map (fun _ => v) X)).

(** An estimator whose [predict] raises [e]. *)
Definition failing_model (e : py_error) : Model :=
  mkModel (fun _ => Raise e).

(** No file at the artifact's path. *)
Definition missing_file : loader :=
  fun path => Raise (mkError FileNotFoundError
    ("[Errno 2] No such file or directory: '" ++ path ++ "'")).

(** A file that is not a pickle. *)
Definition corrupt_file : loader :=
  fun _ => Raise (mkError (OtherException "UnpicklingError")
    "invalid load key, 'x'.").

(** The artifact of [m] at the fixed path and nothing elsewhere. *)
Definition artifact_of (m : Model) : loader :=
  fun path => if String.eqb path MODEL_PATH then Return (Some m)
              else missing_file path.

(** A generator that counts its draws and returns constant arrays: ones for
    [randn], the lower bound for [uniform]. *)
Definition counting_randn (s : nat) (r c : nat) : matrix * nat :=
  (repeat (repeat 1%float c) r, S s).
Definition counting_uniform (s : nat) (low high : float) (r c : nat)
  : matrix * nat :=
  (repeat (repeat low c) r, S s).

(** A fitting routine that ignores the data and returns the box classifier. *)
Definition fit_box (c : float) (s : Z) (X : matrix) : outcome py_error Model :=
  Return box_model.

End Examples.

(** ** The rest of the trainer script (lines 31-45)

    Serialisation of the fitted model and the quick test of the saved
    artifact.  The disk and joblib's two operations on it are parameters, and
    so is NumPy's rendering of arrays inside the two f-strings. *)

Module Script.

Import Service Trainer.

(** The trainer's own [MODEL_PATH] (line 34). *)
Definition MODEL_PATH : string := "anomaly_detector.pkl".

(** The two probes of lines 40-41. *)
Definition test_point_normal : matrix :=
  [[0x1.0cccccccccccdp+1%float; 0x1.0cccccccccccdp+1%float]].   (* 2.1, 2.1 *)
Definition test_point_anomaly : matrix := [[(-5)%float; 5%float]].

(** [a[0]] on a 2-D array; both probes have a row. *)
Definition row0 (a : matrix) : list float :=
  match a with
  | [] => []
  | row :: _ => row
  end.

(** [obj.predict(X)] on whatever [joblib.load] returned: Python's [None]
    has no such attribute. *)
Definition obj_predict (obj : option Model) (X : matrix)
  : M py_error (list scalar) :=
  match obj with
  | None => raise (mkError AttributeError
                     "'NoneType' object has no attribute 'predict'")
  | Some m => model_predict m X
  end.

Definition newline : string := String (Ascii.ascii_of_nat 10) EmptyString.

Section Disk.

(** The file system, [joblib.dump(obj, path)] (its outcome and the disk it
    leaves behind) and [joblib.load(path)]. *)
Variable fs : Type.
Variable joblib_dump : Model -> string -> fs -> outcome py_error unit * fs.
Variable joblib_load : string -> fs -> outcome py_error (option Model).

(** [str] of a row of floats and of an array of predictions. *)
Variable str_row : list float -> string.
Variable str_preds : list scalar -> string.

(** Lines 43-45: reload the artifact and print what it answers on the two
    probes. *)
Definition quick_test (loaded : outcome py_error (option Model))
  : M py_error unit :=
  match loaded with
  | Raise e => raise e
  | Return loaded_model =>
      p <- obj_predict loaded_model test_point_normal ;;
      print (newline ++ "Prediction for normal point "
             ++ str_row (row0 test_point_normal) ++ ": " ++ str_preds p
             ++ " (1 = Normal)") ;;;
      q <- obj_predict loaded_model test_point_anomaly ;;
      print ("Prediction for anomaly point "
             ++ str_row (row0 test_point_anomaly) ++ ": " ++ str_preds q
             ++ " (-1 = Anomaly)")
  end.

(** Lines 31-45, run after the training has produced [model]. *)
Definition save_and_test (model : Model) (disk : fs) : M py_error unit * fs :=
  match joblib_dump model MODEL_PATH disk with
  | (Raise e, disk') => (raise e, disk')
  | (Return _, disk') =>
      (print ("Model artifact saved successfully to " ++ MODEL_PATH) ;;;
       quick_test (joblib_load MODEL_PATH disk'),
       disk')
  end.

Variable rng_state : Type.
Variable RandomState : Z -> rng_state.
Variable randn : rng_state -> nat -> nat -> matrix * rng_state.
Variable uniform : rng_state -> float -> float -> nat -> nat -> matrix * rng_state.
Variable fit : float -> Z -> matrix -> outcome py_error Model.

(** The whole script: what it prints and calls, how it ends, and the disk
    it leaves. *)
Definition main (disk : fs) : M py_error unit * fs :=
  match train rng_state RandomState randn uniform fit with
  | (tr, Raise e) => ((tr, Raise e), disk)
  | (tr, Return (_, model)) =>
      let (rest, disk') := save_and_test model disk in
      (bind (tr, Return tt) (fun _ => rest), disk')
  end.

(** The service started on a disk: its [joblib.load] reads that disk. *)
Definition loader_on (disk : fs) : loader := fun path => joblib_load path disk.

End Disk.

End Script.

(** ** What a trace shows *)

Module Observe.

(** The lines printed, in order. *)
Fixpoint prints (tr : list event) : list string :=
  match tr with
  | [] => []
  | Print line :: tr' => line :: prints tr'
  | _ :: tr' => prints tr'
  end.

(** The arrays passed to [predict], in order. *)
Fixpoint predict_calls (tr : list event) : list (list (list float)) :=
  match tr with
  | [] => []
  | ModelPredict X :: tr' => X :: predict_calls tr'
  | _ :: tr' => predict_calls tr'
  end.

(** A scalar that [int] converts: any integer, and the floats that are
    neither NaN nor infinite. *)
Definition scalar_finite (v : scalar) : bool :=
  match v with
  | NpInt _ => true
  | NpFloat f => PrimFloat.is_finite f
  end.

End Observe.

(** ** A disk for running the script *)

Module ScriptExamples.

Import Service Trainer.

(** A disk that holds at most one pickled object per path. *)
Definition disk : Type := list (string * Model).

Fixpoint lookup (path : string) (d : disk) : option Model :=
  match d with
  | [] => None
  | (p, m) :: d' => if String.eqb p path then Some m else lookup path d'
  end.

Definition dump (m : Model) (path : string) (d : disk)
  : outcome py_error unit * disk :=
  (Return tt, (path, m) :: d).

Definition load (path : string) (d : disk) : outcome py_error (option Model) :=
  match lookup path d with
  | Some m => Return (Some m)
  | None => Examples.missing_file path
  end.

(** An estimator that answers with an empty array. *)
Definition empty_model : Model := mkModel (fun _ => Return []).

(** An artifact that unpickles to Python's [None]. *)
Definition pickled_None : loader := fun _ => Return None.

(** A rendering that keeps only the number of elements. *)
Definition str_len {A} (l : list A) : string :=
  match l with
  | [] => "[]"
  | [_] => "[.]"
  | _ => "[. .]"
  end.

End ScriptExamples.

(** * Properties of the service *)

Module ServiceProofs.

Import Service.

(** ** Floating scalars that compare equal to 1 or -1 *)

Lemma Prim2SF_one :
  Prim2SF (float_of_Z 1) = S754_finite false 4503599627370496 (-52).
Proof. vm_compute. reflexivity. Qed.

Lemma Prim2SF_minus_one :
  Prim2SF (float_of_Z (-1)) = S754_finite true 4503599627370496 (-52).
Proof. vm_compute. reflexivity. Qed.

(** Two finite binary64 numbers that [SFeqb] finds equal have the same sign,
    mantissa and exponent. *)
Lemma SFeqb_finite (x : spec_float) (s : bool) (m : positive) (e : Z) :
  SFeqb x (S754_finite s m e) = true -> x = S754_finite s m e.
Proof.
  unfold SFeqb, SFcompare.
  destruct x as [sx | sx | | sx mx ex]; try (destruct sx, s; discriminate);
    try discriminate.
  fold (Pos.compare mx m).
  destruct sx, s; try discriminate;
    destruct (Z.compare_spec ex e); try discriminate;
    destruct (Pos.compare_spec mx m); try discriminate;
    intros _; subst; reflexivity.
Qed.

(** A binary64 number that [==] finds equal to 1.0 (or to -1.0) is that
    number: no other float, and in particular no zero and no NaN, compares
    equal to it. *)
Lemma float_eqb_unit (f : float) (k : Z) :
  k = 1 \/ k = -1 ->
  PrimFloat.eqb f (float_of_Z k) = true ->
  f = float_of_Z k.
Proof.
  intros Hk H. apply Prim2SF_inj. rewrite eqb_spec in H.
  destruct Hk; subst k.
  - rewrite Prim2SF_one in *. now apply SFeqb_finite.
  - rewrite Prim2SF_minus_one in *. now apply SFeqb_finite.
Qed.

(** For a scalar equal to 1 or to -1, [int] gives that integer and the
    comparison with -1 tells the two apart. *)
Lemma unit_scalar (v : scalar) :
  (scalar_eq_int v 1 || scalar_eq_int v (-1))%bool = true ->
  (py_int v = ret 1 /\ scalar_eq_int v (-1) = false /\ scalar_eq_int v 1 = true)
  \/ (py_int v = ret (-1) /\ scalar_eq_int v (-1) = true).
Proof.
  intros H. apply orb_true_iff in H.
  destruct v as [z | f]; cbn [scalar_eq_int] in *.
  - destruct H as [H | H]; apply Z.eqb_eq in H; subst z; [left | right]; auto.
  - destruct H as [H | H].
    + apply (float_eqb_unit f 1) in H; [ | now left ]. subst f. left.
      repeat split; vm_compute; reflexivity.
    + apply (float_eqb_unit f (-1)) in H; [ | now right ]. subst f. right.
      repeat split; vm_compute; reflexivity.
Qed.

(** [int] prints nothing and calls nothing. *)
Lemma py_int_silent (v : scalar) : fst (py_int v) = [].
Proof.
  destruct v as [z | f]; simpl; [ reflexivity | ].
  destruct (Prim2SF f); reflexivity.
Qed.

(** ** The [try] block *)

(** When the estimator answers with an array whose first element is [v] and
    [int(v)] is [score], the block returns the dictionary built from them. *)
Lemma predict_body_returns (m : Model) (x : float) (xs : list float)
    (v : scalar) (rest : list scalar) (score : Z) :
  predict m [x :: xs] = Return (v :: rest) ->
  py_int v = ret score ->
  predict_body m (mkRequest (x :: xs)) =
    ([ModelPredict [x :: xs]],
     Return {| status := if scalar_eq_int v (-1)
                         then "Anomaly Detected" else "Normal Traffic";
               prediction_score := score;
               input_data := x :: xs;
               message :=
                 "Prediction successful. Score of -1 indicates an anomaly." |}).
Proof.
  intros Hm Hint. unfold predict_body, model_predict. simpl.
  rewrite Hm. simpl. rewrite Hint. reflexivity.
Qed.

(** An exception of the estimator leaves the block as it is, after the call
    was recorded. *)
Lemma predict_body_model_raises (m : Model) (x : float) (xs : list float)
    (e : py_error) :
  predict m [x :: xs] = Raise e ->
  predict_body m (mkRequest (x :: xs)) = ([ModelPredict [x :: xs]], Raise e).
Proof.
  intros Hm. unfold predict_body, model_predict. simpl. rewrite Hm. reflexivity.
Qed.

(** ** The handlers *)

Lemma predict_anomaly_unloaded (request : PredictionRequest) :
  predict_anomaly (mkState None) request =
    ([], Raise (HTTPException 503 DETAIL_NOT_LOADED)).
Proof. reflexivity. Qed.

Lemma predict_anomaly_returns (m : Model) (request : PredictionRequest)
    (tr : list event) (r : PredictionResponse) :
  predict_body m request = (tr, Return r) ->
  predict_anomaly (mkState (Some m)) request = (tr, Return r).
Proof.
  intros H. unfold predict_anomaly, try_except_Exception. simpl.
  rewrite H. reflexivity.
Qed.

Lemma predict_anomaly_caught (m : Model) (request : PredictionRequest)
    (tr : list event) (e : py_error) :
  predict_body m request = (tr, Raise e) ->
  isinstance_Exception e = true ->
  predict_anomaly (mkState (Some m)) request =
    ((tr ++ [Print ("Prediction failed due to internal error: " ++ err_str e)])%list,
     Raise (HTTPException 500 DETAIL_INTERNAL)).
Proof.
  intros H He. unfold predict_anomaly, try_except_Exception. simpl.
  rewrite H, He. reflexivity.
Qed.

(** With a model loaded, [predict_anomaly] ends in one of three ways. *)
Lemma predict_anomaly_loaded_cases (m : Model) (request : PredictionRequest) :
  (exists r, snd (predict_anomaly (mkState (Some m)) request) = Return r)
  \/ snd (predict_anomaly (mkState (Some m)) request)
       = Raise (HTTPException 500 DETAIL_INTERNAL)
  \/ (exists e, isinstance_Exception e = false /\
        snd (predict_anomaly (mkState (Some m)) request) = Raise (Propagated e)).
Proof.
  unfold predict_anomaly, try_except_Exception. simpl.
  destruct (predict_body m request) as [tr [r | e]].
  - left. now exists r.
  - destruct (isinstance_Exception e) eqn:He.
    + right; left. reflexivity.
    + right; right. now exists e.
Qed.

Lemma validate_two (a b : float) : validate [a; b] = Some (mkRequest [a; b]).
Proof. reflexivity. Qed.

Lemma validate_rejects (payload : list float) :
  List.length payload <> 2%nat -> validate payload = None.
Proof.
  intros H. unfold validate, min_length, max_length.
  destruct (2 <=? List.length payload)%nat eqn:H1;
    destruct (List.length payload <=? 2)%nat eqn:H2; try reflexivity.
  apply Nat.leb_le in H1. apply Nat.leb_le in H2. lia.
Qed.

(** A dictionary returned for two finite features is rendered as a 200. *)
Lemma post_predict_returns (m : Model) (a b : float)
    (tr : list event) (r : PredictionResponse) :
  predict_body m (mkRequest [a; b]) = (tr, Return r) ->
  PrimFloat.is_finite a = true ->
  PrimFloat.is_finite b = true ->
  post_predict (mkState (Some m)) [a; b] =
    (tr, Some (mkResponse 200 (JsonPrediction r))).
Proof.
  intros Hb Hfa Hfb.
  assert (Hin : input_data r = [a; b]).
  { unfold predict_body in Hb. cbn [reshape_1_m1 ret bind data] in Hb.
    destruct (model_predict m [[a; b]]) as [t1 [out | e]]; [ | discriminate Hb ].
    cbn [bind] in Hb.
    destruct (index0 out) as [t2 [v | e]]; [ | discriminate Hb ].
    cbn [bind] in Hb.
    destruct (py_int v) as [t3 [n | e]]; [ | discriminate Hb ].
    cbn [bind ret] in Hb. inversion Hb. reflexivity. }
  unfold post_predict. rewrite validate_two.
  rewrite (predict_anomaly_returns m _ _ _ Hb).
  unfold respond, renderable. rewrite Hin.
  cbn [forallb]. unfold json_compliant. rewrite Hfa, Hfb. reflexivity.
Qed.

(** ** Startup *)

(** A load that fails with an [Exception] leaves [model] unset and prints
    exactly one line, which one depending on the class of the failure. *)
Lemma startup_failure (joblib_load : loader) (e : py_error) :
  joblib_load MODEL_PATH = Raise e ->
  isinstance_Exception e = true ->
  startup joblib_load =
    ([Print (if isinstance_FileNotFoundError e
             then "ERROR: Model file 'anomaly_detector.pkl' not found. Prediction service will be non-functional."
             else "ERROR: Failed to load model artifact due to: " ++ err_str e)],
     Return (mkState None)).
Proof.
  intros Hl He. unfold startup. rewrite Hl.
  destruct (isinstance_FileNotFoundError e); [ reflexivity | ].
  rewrite He. reflexivity.
Qed.

(** Whenever a startup whose load failed completes, [model] is unset. *)
Lemma startup_failed_unset (joblib_load : loader) (e : py_error)
    (tr : list event) (st : server_state) :
  joblib_load MODEL_PATH = Raise e ->
  startup joblib_load = (tr, Return st) ->
  model st = None.
Proof.
  intros Hl Hs. unfold startup in Hs. rewrite Hl in Hs.
  destruct (isinstance_FileNotFoundError e);
    [ | destruct (isinstance_Exception e) ];
    simpl in Hs; inversion Hs; reflexivity.
Qed.

(** ** Runs of the whole service *)

(** With the artifact in place, startup loads it and a request is served. *)
Example loaded_startup_serves :
  startup (Examples.artifact_of Examples.box_model) =
    ([Print "Successfully loaded model from anomaly_detector.pkl"],
     Return (mkState (Some Examples.box_model)))
  /\ post_predict (mkState (Some Examples.box_model)) [(-5)%float; 5%float] =
      ([ModelPredict [[(-5)%float; 5%float]]],
       Some (mkResponse 200 (JsonPrediction
         {| status := "Anomaly Detected";
            prediction_score := -1;
            input_data := [(-5)%float; 5%float];
            message :=
              "Prediction successful. Score of -1 indicates an anomaly." |}))).
Proof. split; vm_compute; reflexivity. Qed.

(** A payload that holds NaN passes the schema, and the dictionary returned
    for it cannot be rendered: the features of the theorems below are
    finite. *)
Example nan_payload_not_rendered :
  post_predict (mkState (Some (Examples.constant_model (NpInt 1))))
      [nan; 0%float] =
    ([ModelPredict [[nan; 0%float]]], Some INTERNAL_SERVER_ERROR).
Proof. vm_compute. reflexivity. Qed.

(** What does not derive from [Exception] is not an error of the load or of
    the inference and is left alone by both [except Exception] clauses. *)
Example system_exit_passes_through :
  startup (fun _ => Raise (mkError SystemExit "1")) =
    ([], Raise (mkError SystemExit "1"))
  /\ predict_anomaly
       (mkState (Some (Examples.failing_model (mkError KeyboardInterrupt ""))))
       (mkRequest [1%float; 1%float]) =
     ([ModelPredict [[1%float; 1%float]]],
      Raise (Propagated (mkError KeyboardInterrupt ""))).
Proof. split; vm_compute; reflexivity. Qed.

(** ** What the handlers answer *)

(** C1, as amended.  For a request of exactly two real (finite) features, a
    loaded model whose classification of that sample is 1 or -1: the service
    calls the model once on the one-row sample and answers 200; the score is
    exactly 1 or -1 and is the model's value, the label is "Normal Traffic"
    for 1 and "Anomaly Detected" for -1, and [input_data] is the request's
    data. *)
Theorem predict_classifies (m : Model) (a b : float)
    (v : scalar) (rest : list scalar) :
  PrimFloat.is_finite a = true ->
  PrimFloat.is_finite b = true ->
  predict m [[a; b]] = Return (v :: rest) ->
  (scalar_eq_int v 1 || scalar_eq_int v (-1))%bool = true ->
  exists score label,
    post_predict (mkState (Some m)) [a; b] =
      ([ModelPredict [[a; b]]],
       Some (mkResponse 200 (JsonPrediction
         {| status := label;
            prediction_score := score;
            input_data := [a; b];
            message :=
              "Prediction successful. Score of -1 indicates an anomaly." |})))
    /\ ((score = 1 /\ label = "Normal Traffic")
        \/ (score = -1 /\ label = "Anomaly Detected"))
    /\ scalar_eq_int v score = true.
Proof.
  intros Ha Hb Hm Hv.
  destruct (unit_scalar v Hv) as [(Hint & Hneg & Hpos) | (Hint & Hneg)].
  - exists 1, "Normal Traffic".
    rewrite (post_predict_returns m a b _ _
               (predict_body_returns m a [b] v rest 1 Hm Hint) Ha Hb).
    rewrite Hneg. repeat split; auto.
  - exists (-1), "Anomaly Detected".
    rewrite (post_predict_returns m a b _ _
               (predict_body_returns m a [b] v rest (-1) Hm Hint) Ha Hb).
    rewrite Hneg. repeat split; auto.
Qed.

(** C1, as stated, fails: a loaded model need not classify every sample.
    The box classifier refuses the feature 2^1000, and the request
    [[2^1000, 0]] is answered 500, not 200. *)
Lemma predict_not_always_success :
  post_predict (mkState (Some Examples.box_model)) [0x1p+1000%float; 0%float] =
    ([ModelPredict [[0x1p+1000%float; 0%float]];
      Print "Prediction failed due to internal error: Input X contains infinity or a value too large for dtype('float32')."],
     Some (mkResponse 500 (JsonDetail DETAIL_INTERNAL)))
  /\ ~ (forall (m : Model) (a b : float),
         PrimFloat.is_finite a = true ->
         PrimFloat.is_finite b = true ->
         exists r, snd (post_predict (mkState (Some m)) [a; b]) =
                     Some (mkResponse 200 (JsonPrediction r))
                   /\ (prediction_score r = 1 \/ prediction_score r = -1)).
Proof.
  assert (E : post_predict (mkState (Some Examples.box_model))
                [0x1p+1000%float; 0%float] =
    ([ModelPredict [[0x1p+1000%float; 0%float]];
      Print "Prediction failed due to internal error: Input X contains infinity or a value too large for dtype('float32')."],
     Some (mkResponse 500 (JsonDetail DETAIL_INTERNAL)))) by (vm_compute; reflexivity).
  split; [ exact E | ].
  intros H.
  destruct (H Examples.box_model 0x1p+1000%float 0%float eq_refl eq_refl)
    as (r & Hr & _).
  rewrite E in Hr. discriminate Hr.
Qed.

(** C2, as amended.  A value other than 1 and -1 is not treated as an error:
    for two real (finite) features, whenever the conversion of the value to
    an integer succeeds (it always does for an integer score) the service
    answers 200 with the label "Normal Traffic" and the converted value as
    score. *)
Theorem unexpected_score_is_normal_traffic (m : Model) (a b : float)
    (v : scalar) (rest : list scalar) (score : Z) :
  PrimFloat.is_finite a = true ->
  PrimFloat.is_finite b = true ->
  predict m [[a; b]] = Return (v :: rest) ->
  scalar_eq_int v 1 = false ->
  scalar_eq_int v (-1) = false ->
  py_int v = ret score ->
  post_predict (mkState (Some m)) [a; b] =
    ([ModelPredict [[a; b]]],
     Some (mkResponse 200 (JsonPrediction
       {| status := "Normal Traffic";
          prediction_score := score;
          input_data := [a; b];
          message :=
            "Prediction successful. Score of -1 indicates an anomaly." |}))).
Proof.
  intros Ha Hb Hm _ Hneg Hint.
  rewrite (post_predict_returns m a b _ _
             (predict_body_returns m a [b] v rest score Hm Hint) Ha Hb).
  rewrite Hneg. reflexivity.
Qed.

(** C2, as stated, fails: a model that answers 0 gets a 200 labelled
    "Normal Traffic" with score 0, and no internal error is signalled. *)
Lemma unexpected_score_not_internal_error :
  post_predict (mkState (Some (Examples.constant_model (NpInt 0))))
      [2%float; 2%float] =
    ([ModelPredict [[2%float; 2%float]]],
     Some (mkResponse 200 (JsonPrediction
       {| status := "Normal Traffic";
          prediction_score := 0;
          input_data := [2%float; 2%float];
          message :=
            "Prediction successful. Score of -1 indicates an anomaly." |})))
  /\ ~ (forall (m : Model) (a b : float) (v : scalar) (rest : list scalar),
         PrimFloat.is_finite a = true ->
         PrimFloat.is_finite b = true ->
         predict m [[a; b]] = Return (v :: rest) ->
         scalar_eq_int v 1 = false ->
         scalar_eq_int v (-1) = false ->
         snd (predict_anomaly (mkState (Some m)) (mkRequest [a; b])) =
           Raise (HTTPException 500 DETAIL_INTERNAL)).
Proof.
  split; [ vm_compute; reflexivity | ].
  intros H.
  specialize (H (Examples.constant_model (NpInt 0)) 2%float 2%float
                (NpInt 0) [] eq_refl eq_refl eq_refl eq_refl eq_refl).
  vm_compute in H. discriminate H.
Qed.

(** C3.  A payload whose [data] array does not have exactly two elements is
    answered with the client error 422, whatever the state of the server,
    and the model is not called. *)
Theorem wrong_length_rejected (st : server_state) (payload : list float) :
  List.length payload <> 2%nat ->
  post_predict st payload =
    ([], Some (mkResponse HTTP_422_UNPROCESSABLE_ENTITY JsonValidationErrors))
  /\ (exists r, snd (post_predict st payload) = Some r /\ client_error r = true)
  /\ model_invoked (fst (post_predict st payload)) = false.
Proof.
  intros Hlen. unfold post_predict. rewrite (validate_rejects payload Hlen).
  split; [ reflexivity | split ].
  - eexists. split; reflexivity.
  - reflexivity.
Qed.

(** C4.  When no model is loaded, and in particular in the state a startup
    reaches after its load failed, [GET /health] is answered 503 and so is
    [POST /predict] for every two-feature payload, without any call of a
    model. *)
Theorem no_model_503 (st : server_state) :
  model st = None
  \/ (exists (joblib_load : loader) (e : py_error) (tr : list event),
        joblib_load MODEL_PATH = Raise e
        /\ startup joblib_load = (tr, Return st)) ->
  health_check st = ([], Raise (HTTPException 503 DETAIL_HEALTH))
  /\ get_health st = ([], Some (mkResponse 503 (JsonDetail DETAIL_HEALTH)))
  /\ forall a b : float,
       predict_anomaly st (mkRequest [a; b]) =
         ([], Raise (HTTPException 503 DETAIL_NOT_LOADED))
       /\ post_predict st [a; b] =
            ([], Some (mkResponse 503 (JsonDetail DETAIL_NOT_LOADED)))
       /\ model_invoked (fst (post_predict st [a; b])) = false.
Proof.
  intros H.
  assert (Hst : st = mkState None).
  { destruct H as [H | (joblib_load & e & tr & Hl & Hs)].
    - destruct st as [mo]. simpl in H. now subst mo.
    - destruct st as [mo]. f_equal.
      exact (startup_failed_unset joblib_load e tr _ Hl Hs). }
  subst st. repeat split; reflexivity.
Qed.

(** C5.  In every state of the server, [health_check] returns a dictionary
    with [model_loaded] true exactly when [predict_anomaly] does not answer
    503, and raises its own 503 exactly when [predict_anomaly] raises 503. *)
Theorem health_agrees_with_predict (st : server_state)
    (request : PredictionRequest) :
  ((exists h, snd (health_check st) = Return h /\ model_loaded h = true)
   <-> (forall d, snd (predict_anomaly st request) <> Raise (HTTPException 503 d)))
  /\ (snd (health_check st) = Raise (HTTPException 503 DETAIL_HEALTH)
      <-> snd (predict_anomaly st request) =
            Raise (HTTPException 503 DETAIL_NOT_LOADED)).
Proof.
  destruct st as [[m | ]].
  - assert (Hp : forall d, snd (predict_anomaly (mkState (Some m)) request)
                           <> Raise (HTTPException 503 d)).
    { intros d.
      destruct (predict_anomaly_loaded_cases m request)
        as [(r & H) | [H | (e & _ & H)]]; rewrite H; discriminate. }
    split; split.
    + intros _. exact Hp.
    + intros _. eexists. split; reflexivity.
    + simpl. discriminate.
    + intros H. exfalso. exact (Hp _ H).
  - split; split.
    + intros (h & H & _). simpl in H. discriminate H.
    + intros H. exfalso. apply (H DETAIL_NOT_LOADED). reflexivity.
    + reflexivity.
    + reflexivity.
Qed.

(** C6.  With a model loaded, any [Exception] raised inside the [try] block
    is caught: one line holding the exception's text goes to the log, and
    the caller gets status 500 with the fixed detail string, which is the
    same for every exception. *)
Theorem inference_exception_generic_500 (m : Model)
    (request : PredictionRequest) (tr : list event) (e : py_error) :
  predict_body m request = (tr, Raise e) ->
  isinstance_Exception e = true ->
  predict_anomaly (mkState (Some m)) request =
    ((tr ++ [Print ("Prediction failed due to internal error: " ++ err_str e)])%list,
     Raise (HTTPException 500 "Internal processing error during prediction."))
  /\ respond JsonPrediction (snd (predict_anomaly (mkState (Some m)) request)) =
       Some (mkResponse 500
               (JsonDetail "Internal processing error during prediction.")).
Proof.
  intros Hb He. rewrite (predict_anomaly_caught m request tr e Hb He).
  split; reflexivity.
Qed.

(** C7.  If [joblib.load] of the fixed path raises an [Exception] (a missing
    file or any other error), startup prints one line reporting the failure,
    leaves [model] at [None] and completes. *)
Theorem startup_survives_load_failure (joblib_load : loader) (e : py_error) :
  joblib_load "anomaly_detector.pkl" = Raise e ->
  isinstance_Exception e = true ->
  exists line,
    startup joblib_load = ([Print line], Return (mkState None))
    /\ line =
         if isinstance_FileNotFoundError e
         then "ERROR: Model file 'anomaly_detector.pkl' not found. Prediction service will be non-functional."
         else "ERROR: Failed to load model artifact due to: " ++ err_str e.
Proof.
  intros Hl He. eexists. split; [ | reflexivity ].
  exact (startup_failure joblib_load e Hl He).
Qed.

(** C10.  With no model loaded [predict_anomaly] raises the 503 for every
    request, and nothing is printed or called; a 500 from [predict_anomaly]
    implies that a model is loaded; and the 500 does occur with one. *)
Theorem unloaded_is_503_never_500 :
  (forall (st : server_state) (request : PredictionRequest),
     model st = None ->
     predict_anomaly st request =
       ([], Raise (HTTPException 503 DETAIL_NOT_LOADED)))
  /\ (forall (st : server_state) (request : PredictionRequest) (d : string),
        snd (predict_anomaly st request) = Raise (HTTPException 500 d) ->
        model st <> None)
  /\ (exists (st : server_state) (request : PredictionRequest),
        model st <> None /\
        snd (predict_anomaly st request) =
          Raise (HTTPException 500 DETAIL_INTERNAL)).
Proof.
  split; [ | split ].
  - intros [mo] request H. simpl in H. subst mo. reflexivity.
  - intros [[m | ]] request d H; simpl; [ discriminate | ].
    simpl in H. discriminate H.
  - exists (mkState (Some (Examples.failing_model
                             (mkError ValueError "not fitted")))),
           (mkRequest [1%float; 1%float]).
    split; [ simpl; discriminate | vm_compute; reflexivity ].
Qed.

(** ** The theorems on explicit inputs *)

(** C1 on the box classifier and the sample [[2, 2]]. *)
Lemma predict_classifies_witness :
  predict Examples.box_model [[2%float; 2%float]] = Return [NpInt 1]
  /\ exists score label,
       post_predict (mkState (Some Examples.box_model)) [2%float; 2%float] =
         ([ModelPredict [[2%float; 2%float]]],
          Some (mkResponse 200 (JsonPrediction
            {| status := label;
               prediction_score := score;
               input_data := [2%float; 2%float];
               message :=
                 "Prediction successful. Score of -1 indicates an anomaly." |})))
       /\ ((score = 1 /\ label = "Normal Traffic")
           \/ (score = -1 /\ label = "Anomaly Detected"))
       /\ scalar_eq_int (NpInt 1) score = true.
Proof.
  split; [ vm_compute; reflexivity | ].
  apply (predict_classifies Examples.box_model 2%float 2%float (NpInt 1) []);
    vm_compute; reflexivity.
Defined.

(** C2 on a model that answers the floating score 0.5. *)
Lemma unexpected_score_is_normal_traffic_witness :
  py_int (NpFloat 0.5%float) = ret 0
  /\ post_predict (mkState (Some (Examples.constant_model (NpFloat 0.5%float))))
        [2%float; 2%float] =
      ([ModelPredict [[2%float; 2%float]]],
       Some (mkResponse 200 (JsonPrediction
         {| status := "Normal Traffic";
            prediction_score := 0;
            input_data := [2%float; 2%float];
            message :=
              "Prediction successful. Score of -1 indicates an anomaly." |}))).
Proof.
  split; [ vm_compute; reflexivity | ].
  apply (unexpected_score_is_normal_traffic
           (Examples.constant_model (NpFloat 0.5%float)) 2%float 2%float
           (NpFloat 0.5%float) [] 0);
    vm_compute; reflexivity.
Defined.

(** C3 on the payloads [[1.0]] and [[1.0, 2.0, 3.0]], with a model loaded. *)
Lemma wrong_length_rejected_witness :
  post_predict (mkState (Some Examples.box_model)) [1%float] =
    ([], Some (mkResponse 422 JsonValidationErrors))
  /\ post_predict (mkState (Some Examples.box_model))
        [1%float; 2%float; 3%float] =
      ([], Some (mkResponse 422 JsonValidationErrors)).
Proof.
  split.
  - apply (wrong_length_rejected (mkState (Some Examples.box_model)) [1%float]).
    simpl. lia.
  - apply (wrong_length_rejected (mkState (Some Examples.box_model))
             [1%float; 2%float; 3%float]).
    simpl. lia.
Defined.

(** C4 after a startup that found no file. *)
Lemma no_model_503_witness :
  startup Examples.missing_file =
    ([Print "ERROR: Model file 'anomaly_detector.pkl' not found. Prediction service will be non-functional."],
     Return (mkState None))
  /\ get_health (mkState None) =
      ([], Some (mkResponse 503 (JsonDetail DETAIL_HEALTH)))
  /\ post_predict (mkState None) [2%float; 2%float] =
      ([], Some (mkResponse 503 (JsonDetail DETAIL_NOT_LOADED))).
Proof.
  split; [ vm_compute; reflexivity | ].
  destruct (no_model_503 (mkState None)) as (_ & Hh & Hp).
  - right.
    exists Examples.missing_file,
           (mkError FileNotFoundError
              "[Errno 2] No such file or directory: 'anomaly_detector.pkl'"),
           [Print "ERROR: Model file 'anomaly_detector.pkl' not found. Prediction service will be non-functional."].
    split; vm_compute; reflexivity.
  - split; [ exact Hh | ].
    destruct (Hp 2%float 2%float) as (_ & H & _). exact H.
Defined.

(** C6 on the box classifier refusing the feature 2^1000. *)
Lemma inference_exception_generic_500_witness :
  predict_anomaly (mkState (Some Examples.box_model))
      (mkRequest [0x1p+1000%float; 0%float]) =
    ([ModelPredict [[0x1p+1000%float; 0%float]];
      Print "Prediction failed due to internal error: Input X contains infinity or a value too large for dtype('float32')."],
     Raise (HTTPException 500 "Internal processing error during prediction.")).
Proof.
  apply (inference_exception_generic_500 Examples.box_model
           (mkRequest [0x1p+1000%float; 0%float])
           [ModelPredict [[0x1p+1000%float; 0%float]]]
           (mkError ValueError
              "Input X contains infinity or a value too large for dtype('float32').")).
  - vm_compute. reflexivity.
  - reflexivity.
Defined.

(** C7 on a file that is not a pickle. *)
Lemma startup_survives_load_failure_witness :
  exists line,
    startup Examples.corrupt_file = ([Print line], Return (mkState None))
    /\ line = "ERROR: Failed to load model artifact due to: invalid load key, 'x'.".
Proof.
  apply (startup_survives_load_failure Examples.corrupt_file
           (mkError (OtherException "UnpicklingError") "invalid load key, 'x'."));
    reflexivity.
Defined.

End ServiceProofs.

(** * Properties of the trainer *)

Module TrainerProofs.

Import Service Trainer.

Lemma forallb_impl {A} (p q : A -> bool) (l : list A) :
  (forall x, p x = true -> q x = true) ->
  forallb p l = true -> forallb q l = true.
Proof.
  intros Hpq. induction l as [ | x l IH]; simpl; [ reflexivity | ].
  intros H. apply andb_true_iff in H. destruct H as [Hx Hl].
  rewrite (Hpq x Hx), (IH Hl). reflexivity.
Qed.

Lemma ltb_leb (x y : float) :
  PrimFloat.ltb x y = true -> PrimFloat.leb x y = true.
Proof.
  rewrite ltb_spec, leb_spec. unfold SFltb, SFleb.
  destruct (SFcompare (Prim2SF x) (Prim2SF y)) as [[ | | ] | ];
    intros H; first [ reflexivity | discriminate H ].
Qed.

(** A half-open range lies in the closed one. *)
Lemma within_closed_of_within (low high : float) (X : matrix) :
  within low high X = true -> within_closed low high X = true.
Proof.
  unfold within, within_closed. apply forallb_impl. intros row.
  apply forallb_impl. intros x H.
  apply andb_true_iff in H. destruct H as [H1 H2].
  rewrite H1, (ltb_leb _ _ H2). reflexivity.
Qed.

Lemma has_shape_spec (X : matrix) (r c : nat) :
  has_shape X r c = true <->
  List.length X = r /\ forall row, In row X -> List.length row = c.
Proof.
  unfold has_shape. rewrite andb_true_iff, Nat.eqb_eq, forallb_forall.
  split; intros [H1 H2]; (split; [ exact H1 | ]); intros row Hrow;
    specialize (H2 row Hrow); [ now apply Nat.eqb_eq | now apply Nat.eqb_eq ].
Qed.

(** Element-wise operations keep the shape. *)
Lemma has_shape_map (f : float -> float) (X : matrix) (r c : nat) :
  has_shape X r c = true -> has_shape (map (map f) X) r c = true.
Proof.
  rewrite !has_shape_spec. intros [H1 H2]. split.
  - now rewrite length_map.
  - intros row Hrow. apply in_map_iff in Hrow.
    destruct Hrow as (row' & <- & Hin). rewrite length_map. now apply H2.
Qed.

Lemma has_shape_app (A B : matrix) (ra rb c : nat) :
  has_shape A ra c = true -> has_shape B rb c = true ->
  has_shape (A ++ B)%list (ra + rb) c = true.
Proof.
  rewrite !has_shape_spec. intros [HA1 HA2] [HB1 HB2]. split.
  - rewrite length_app. lia.
  - intros row Hrow. apply in_app_or in Hrow. destruct Hrow; auto.
Qed.

(** Arrays of one width can be stacked. *)
Lemma same_width_of_shape (A B : matrix) (ra rb c : nat) :
  has_shape A ra c = true -> has_shape B rb c = true ->
  same_width A B = true.
Proof.
  intros HA HB. pose proof (has_shape_app A B ra rb c HA HB) as H.
  apply has_shape_spec in H. destruct H as [_ H].
  unfold same_width. destruct (A ++ B)%list as [ | row0 rows]; [ reflexivity | ].
  simpl. apply forallb_forall. intros w Hw. apply in_map_iff in Hw.
  destruct Hw as (row & <- & Hin). apply Nat.eqb_eq.
  rewrite (H row0 (or_introl eq_refl)), (H row (or_intror Hin)). reflexivity.
Qed.

Lemma r_stacks (A B : matrix) (ra rb c : nat) :
  has_shape A ra c = true -> has_shape B rb c = true ->
  r_ A B = ret (A ++ B)%list.
Proof.
  intros HA HB. unfold r_. now rewrite (same_width_of_shape A B ra rb c HA HB).
Qed.

(** When the two draws have the shapes asked for, the script reaches the fit
    with the set the specification describes, and ends as the fit does. *)
Lemma train_run (rng_state : Type) (RandomState : Z -> rng_state)
    (randn : rng_state -> nat -> nat -> matrix * rng_state)
    (uniform : rng_state -> float -> float -> nat -> nat -> matrix * rng_state)
    (fit : float -> Z -> matrix -> outcome py_error Model) :
  let noise := fst (randn (RandomState 42) 1000%nat 2%nat) in
  let scattered :=
    fst (uniform (snd (randn (RandomState 42) 1000%nat 2%nat))
           (-6)%float 6%float 20%nat 2%nat) in
  let X := spec_training_set noise scattered in
  has_shape noise 1000 2 = true ->
  has_shape scattered 20 2 = true ->
  train rng_state RandomState randn uniform fit =
    match fit 0x1.47ae147ae147bp-6%float 42 X with
    | Return model =>
        ([Print "Training Isolation Forest model...";
          ModelFit 0x1.47ae147ae147bp-6%float 42 X;
          Print "Training complete."],
         Return (X, model))
    | Raise e =>
        ([Print "Training Isolation Forest model...";
          ModelFit 0x1.47ae147ae147bp-6%float 42 X],
         Raise e)
    end.
Proof.
  intros noise scattered X Hn Hs. subst X scattered noise.
  unfold train, spec_training_set, SEED, LOW, HIGH in *.
  destruct (randn (RandomState 42) 1000%nat 2%nat) as [N rng1].
  simpl fst in *. simpl snd in *.
  destruct (uniform rng1 (-6)%float 6%float 20%nat 2%nat) as [U rng2].
  simpl fst in *.
  assert (Hp : has_shape (add_scalar (scale NOISE_SCALE N) 2) 1000 2 = true).
  { unfold add_scalar, scale. now do 2 apply has_shape_map. }
  assert (Hm : has_shape (sub_scalar (scale NOISE_SCALE N) 2) 1000 2 = true).
  { unfold sub_scalar, scale. now do 2 apply has_shape_map. }
  rewrite (r_stacks _ _ _ _ _ Hp Hm).
  cbn [bind ret].
  rewrite (r_stacks _ _ _ _ _ (has_shape_app _ _ _ _ _ Hp Hm) Hs).
  cbn [bind ret print emit model_fit].
  unfold add_scalar, sub_scalar, scale, NOISE_SCALE, CONTAMINATION.
  rewrite !map_map.
  rewrite (map_ext _ _ (fun row => map_map _ _ row)).
  rewrite (map_ext (fun row => map _ (map _ row)) _
             (fun row => map_map _ _ row)).
  rewrite <- app_assoc.
  destruct (fit _ _ _); reflexivity.
Qed.

Lemma firstn_skipn_app {A} (l1 l2 : list A) (n : nat) :
  List.length l1 = n ->
  firstn n (l1 ++ l2)%list = l1 /\ skipn n (l1 ++ l2)%list = l2.
Proof.
  intros <-. split.
  - rewrite firstn_app, Nat.sub_diag, firstn_all. simpl. apply app_nil_r.
  - rewrite skipn_app, Nat.sub_diag, skipn_all. reflexivity.
Qed.

(** C9.  With [noise] the 1000 x 2 standard-normal draw of the generator
    seeded with 42 and [scattered] its following 20 x 2 uniform draw over
    [-6, 6): the script calls [fit] once, with contamination 0.02 and seed 42,
    on the set the specification describes. That set has 2020 rows of two
    features: rows 0-999 are the noise scaled by 0.3 and moved by +2, rows
    1000-1999 the same noise moved by -2, and rows 2000-2019 the scattered
    samples, all within [-6, 6]. When the fit returns, the script returns
    that set and the fitted model. *)
Theorem training_set_as_specified (rng_state : Type)
    (RandomState : Z -> rng_state)
    (randn : rng_state -> nat -> nat -> matrix * rng_state)
    (uniform : rng_state -> float -> float -> nat -> nat -> matrix * rng_state)
    (fit : float -> Z -> matrix -> outcome py_error Model) :
  let noise := fst (randn (RandomState 42) 1000%nat 2%nat) in
  let scattered :=
    fst (uniform (snd (randn (RandomState 42) 1000%nat 2%nat))
           (-6)%float 6%float 20%nat 2%nat) in
  let run := train rng_state RandomState randn uniform fit in
  has_shape noise 1000 2 = true ->
  has_shape scattered 20 2 = true ->
  within (-6)%float 6%float scattered = true ->
  exists X_data : matrix,
    X_data = spec_training_set noise scattered
    /\ fit_calls (fst run) = [(0x1.47ae147ae147bp-6%float, 42, X_data)]
    /\ (forall model, fit 0x1.47ae147ae147bp-6%float 42 X_data = Return model ->
          snd run = Return (X_data, model))
    /\ has_shape X_data 2020 2 = true
    /\ firstn 1000 X_data =
         map (map (fun n => (0x1.3333333333333p-2 * n + 2)%float)) noise
    /\ firstn 1000 (skipn 1000 X_data) =
         map (map (fun n => (0x1.3333333333333p-2 * n - 2)%float)) noise
    /\ skipn 2000 X_data = scattered
    /\ within_closed (-6)%float 6%float (skipn 2000 X_data) = true.
Proof.
  intros noise scattered run Hn Hs Hw.
  pose proof (train_run rng_state RandomState randn uniform fit Hn Hs) as Hrun.
  fold noise scattered in Hrun. fold run in Hrun.
  exists (spec_training_set noise scattered).
  assert (Hlen : List.length noise = 1000%nat)
    by (apply has_shape_spec in Hn; tauto).
  set (plus := map (map (fun n => (0x1.3333333333333p-2 * n + 2)%float)) noise).
  set (minus := map (map (fun n => (0x1.3333333333333p-2 * n - 2)%float)) noise).
  assert (Hplus : has_shape plus 1000 2 = true) by now apply has_shape_map.
  assert (Hminus : has_shape minus 1000 2 = true) by now apply has_shape_map.
  assert (Lp : List.length plus = 1000%nat)
    by (apply has_shape_spec in Hplus; tauto).
  assert (Lm : List.length minus = 1000%nat)
    by (apply has_shape_spec in Hminus; tauto).
  assert (Hskip1 : skipn 1000 (spec_training_set noise scattered)
                   = (minus ++ scattered)%list).
  { unfold spec_training_set. fold plus minus.
    now apply firstn_skipn_app. }
  assert (Hskip2 : skipn 2000 (spec_training_set noise scattered) = scattered).
  { change 2000%nat with (1000 + 1000)%nat.
    rewrite <- skipn_skipn, Hskip1.
    now apply firstn_skipn_app. }
  split; [ reflexivity | ].
  split; [ rewrite Hrun; destruct (fit _ _ _); reflexivity | ].
  split; [ intros model Hfit; rewrite Hrun, Hfit; reflexivity | ].
  split.
  { unfold spec_training_set. fold plus minus.
    change 2020%nat with (1000 + (1000 + 20))%nat.
    apply has_shape_app; [ assumption | ]. now apply has_shape_app. }
  split.
  { unfold spec_training_set. fold plus minus. now apply firstn_skipn_app. }
  split.
  { rewrite Hskip1. now apply firstn_skipn_app. }
  split; [ exact Hskip2 | ].
  rewrite Hskip2. now apply within_closed_of_within.
Qed.

(** C9 on the counting generator: the hypotheses hold and the theorem
    applies. *)
Lemma training_set_as_specified_witness :
  exists X_data : matrix,
    X_data = spec_training_set
               (repeat [1%float; 1%float] 1000)
               (repeat [(-6)%float; (-6)%float] 20)
    /\ fit_calls (fst (train nat (fun _ => O) Examples.counting_randn
                         Examples.counting_uniform Examples.fit_box))
       = [(0x1.47ae147ae147bp-6%float, 42, X_data)]
    /\ has_shape X_data 2020 2 = true.
Proof.
  destruct (training_set_as_specified nat (fun _ => O)
              Examples.counting_randn Examples.counting_uniform
              Examples.fit_box)
    as (X & HX & Hfit & _ & Hshape & _);
    [ vm_compute; reflexivity | vm_compute; reflexivity
    | vm_compute; reflexivity | ].
  exists X. split; [ exact HX | split; [ exact Hfit | exact Hshape ] ].
Defined.

End TrainerProofs.

(** * Further properties of the service *)

Module ServiceExtras.

Import Service Observe.

(** ** Which scalars [int] converts *)

Lemma Prim2SF_infinity : Prim2SF infinity = S754_infinity false.
Proof. vm_compute. reflexivity. Qed.

Lemma SFcompare_refl_finite (s : bool) (m : positive) (e : Z) :
  SFcompare (S754_finite s m e) (S754_finite s m e) = Some Eq.
Proof.
  unfold SFcompare. rewrite Z.compare_refl.
  fold (Pos.compare m m). rewrite Pos.compare_refl.
  destruct s; reflexivity.
Qed.

(** [is_finite] singles out the zeros and the finite numbers. *)
Lemma is_finite_spec (f : float) :
  PrimFloat.is_finite f =
    match Prim2SF f with
    | S754_zero _ | S754_finite _ _ _ => true
    | S754_infinity _ | S754_nan => false
    end.
Proof.
  unfold is_finite, is_nan, is_infinity.
  rewrite !eqb_spec, abs_spec, Prim2SF_infinity.
  destruct (Prim2SF f) as [s | s | | s m e].
  - destruct s; reflexivity.
  - destruct s; reflexivity.
  - reflexivity.
  - unfold SFeqb. rewrite SFcompare_refl_finite. reflexivity.
Qed.

Lemma py_int_convertible (v : scalar) :
  scalar_finite v = true -> exists n, py_int v = ret n.
Proof.
  destruct v as [z | f]; simpl.
  - intros _. now exists z.
  - rewrite is_finite_spec. destruct (Prim2SF f) as [s | s | | s m e];
      intros H; try discriminate H; eexists; reflexivity.
Qed.

Lemma py_int_not_convertible (v : scalar) :
  scalar_finite v = false ->
  exists e, py_int v = raise e /\ isinstance_Exception e = true.
Proof.
  destruct v as [z | f]; simpl.
  - discriminate.
  - rewrite is_finite_spec. destruct (Prim2SF f) as [s | s | | s m e];
      intros H; try discriminate H; eexists; split; reflexivity.
Qed.

(** A scalar that [==] finds equal to -1 converts to -1. *)
Lemma minus_one_converts (v : scalar) :
  scalar_eq_int v (-1) = true -> py_int v = ret (-1).
Proof.
  intros H.
  destruct (ServiceProofs.unit_scalar v) as [(_ & Hneg & _) | (Hint & _)].
  - rewrite H. apply orb_true_r.
  - rewrite H in Hneg. discriminate Hneg.
  - exact Hint.
Qed.

(** ** The [try] block, step by step *)

(** What the block does with the estimator's answer, for data that has at
    least one element. *)
Lemma predict_body_cases (m : Model) (x : float) (xs : list float) :
  predict_body m (mkRequest (x :: xs)) =
    ([ModelPredict [x :: xs]],
     match predict m [x :: xs] with
     | Raise e => Raise e
     | Return [] =>
         Raise (mkError IndexError
                  "index 0 is out of bounds for axis 0 with size 0")
     | Return (v :: _) =>
         match snd (py_int v) with
         | Raise e => Raise e
         | Return score =>
             Return {| status := if scalar_eq_int v (-1)
                                 then "Anomaly Detected" else "Normal Traffic";
                       prediction_score := score;
                       input_data := x :: xs;
                       message :=
                         "Prediction successful. Score of -1 indicates an anomaly." |}
         end
     end).
Proof.
  unfold predict_body, model_predict. cbn [reshape_1_m1 ret bind data].
  destruct (predict m [x :: xs]) as [[ | v rest] | e]; try reflexivity.
  cbn [index0 ret bind].
  pose proof (ServiceProofs.py_int_silent v) as Hs.
  destruct (py_int v) as [t [n | e]]; simpl in Hs; subst t; reflexivity.
Qed.



Lemma predict_calls_app (t1 t2 : list event) :
  predict_calls (t1 ++ t2)%list = (predict_calls t1 ++ predict_calls t2)%list.
Proof.
  induction t1 as [ | ev t1 IH]; [ reflexivity | ].
  destruct ev; simpl; rewrite IH; reflexivity.
Qed.

(** The handler with a model loaded, in terms of the block. *)
Lemma predict_anomaly_loaded (m : Model) (request : PredictionRequest) :
  predict_anomaly (mkState (Some m)) request =
    match snd (predict_body m request) with
    | Return r => (fst (predict_body m request), Return r)
    | Raise e =>
        if isinstance_Exception e
        then ((fst (predict_body m request)
               ++ [Print ("Prediction failed due to internal error: "
                          ++ err_str e)])%list,
              Raise (HTTPException 500 DETAIL_INTERNAL))
        else (fst (predict_body m request), Raise (Propagated e))
    end.
Proof.
  unfold predict_anomaly, try_except_Exception. cbn [model].
  destruct (predict_body m request) as [tr [r | e]]; cbn [fst snd];
    [ reflexivity | ].
  destruct (isinstance_Exception e); reflexivity.
Qed.

Lemma post_predict_wrong_length (st : server_state) (payload : list float) :
  List.length payload <> 2%nat ->
  post_predict st payload =
    ([], Some (mkResponse 422 JsonValidationErrors)).
Proof.
  intros Hlen. unfold post_predict.
  rewrite (ServiceProofs.validate_rejects payload Hlen). reflexivity.
Qed.

(** ** When the handler returns a dictionary *)

(** X1.  With a model loaded and data of at least one element, the handler
    returns a dictionary exactly when the estimator returned a non-empty
    array whose first element [int] can convert: an integer, or a float that
    is neither NaN nor infinite. *)
Theorem dictionary_iff_convertible_score (m : Model) (x : float)
    (xs : list float) :
  (exists r, snd (predict_anomaly (mkState (Some m)) (mkRequest (x :: xs)))
             = Return r)
  <-> (exists v rest, predict m [x :: xs] = Return (v :: rest)
                      /\ scalar_finite v = true).
Proof.
  rewrite predict_anomaly_loaded, predict_body_cases. cbn [fst snd].
  destruct (predict m [x :: xs]) as [[ | v rest] | e].
  - split; [ intros (r & H); discriminate H | intros (v & rest & H & _) ].
    discriminate H.
  - destruct (scalar_finite v) eqn:Hv.
    + destruct (py_int_convertible v Hv) as (n & Hn). rewrite Hn. cbn.
      split; [ intros _; now exists v, rest | intros _; eexists; reflexivity ].
    + destruct (py_int_not_convertible v Hv) as (e & He & Hex). rewrite He.
      cbn. rewrite Hex. cbn.
      split; [ intros (r & H); discriminate H | ].
      intros (v' & rest' & H & Hv'). inversion H; subst v'.
      rewrite Hv in Hv'. discriminate Hv'.
  - destruct (isinstance_Exception e); cbn;
      (split; [ intros (r & H); discriminate H | ]);
      intros (v & rest & H & _); discriminate H.
Qed.

(** X2.  An estimator that answers with an empty array makes the indexing
    fail: the call is made, one line is logged and the generic 500 is
    raised. *)
Theorem empty_prediction_is_500 (m : Model) (x : float) (xs : list float) :
  predict m [x :: xs] = Return [] ->
  predict_anomaly (mkState (Some m)) (mkRequest (x :: xs)) =
    ([ModelPredict [x :: xs];
      Print "Prediction failed due to internal error: index 0 is out of bounds for axis 0 with size 0"],
     Raise (HTTPException 500 DETAIL_INTERNAL)).
Proof.
  intros H. rewrite predict_anomaly_loaded, predict_body_cases, H. reflexivity.
Qed.

(** X3.  A first element that is NaN or infinite cannot become the integer
    score: the generic 500 is raised, and no dictionary is returned. *)
Theorem nonfinite_score_is_500 (m : Model) (x : float) (xs : list float)
    (f : float) (rest : list scalar) :
  predict m [x :: xs] = Return (NpFloat f :: rest) ->
  PrimFloat.is_finite f = false ->
  snd (predict_anomaly (mkState (Some m)) (mkRequest (x :: xs))) =
    Raise (HTTPException 500 DETAIL_INTERNAL).
Proof.
  intros H Hf.
  rewrite predict_anomaly_loaded, predict_body_cases, H. cbn [fst snd].
  destruct (py_int_not_convertible (NpFloat f) Hf) as (e & He & Hex).
  rewrite He. cbn. rewrite Hex. reflexivity.
Qed.

(** ** What the handler calls and logs *)

(** X4.  [POST /predict] calls the estimator at most once: exactly once, on
    the single row made of the payload, when a model is loaded and the
    payload has two elements, and not at all otherwise. *)
Theorem model_called_once_with_payload (st : server_state)
    (payload : list float) :
  predict_calls (fst (post_predict st payload)) =
    match model st with
    | Some _ => if (List.length payload =? 2)%nat then [[payload]] else []
    | None => []
    end.
Proof.
  destruct (Nat.eqb_spec (List.length payload) 2) as [Hlen | Hlen].
  - destruct payload as [ | a [ | b [ | c rest]]]; try discriminate Hlen.
    unfold post_predict. rewrite ServiceProofs.validate_two.
    destruct st as [[m | ]]; [ | reflexivity ].
    rewrite predict_anomaly_loaded, predict_body_cases. cbn [fst snd model].
    destruct (predict m [[a; b]]) as [[ | v out] | e].
    + reflexivity.
    + destruct (snd (py_int v)) as [n | e]; [ reflexivity | ].
      destruct (isinstance_Exception e); reflexivity.
    + destruct (isinstance_Exception e); reflexivity.
  - rewrite (post_predict_wrong_length st payload Hlen).
    destruct (model st); reflexivity.
Qed.


(** X6.  Every dictionary the handler returns carries the request's data
    and the fixed message, one of the two labels, and the score -1 whenever
    the label is "Anomaly Detected". *)
Theorem returned_dictionary_invariant (st : server_state)
    (request : PredictionRequest) (tr : list event) (r : PredictionResponse) :
  predict_anomaly st request = (tr, Return r) ->
  input_data r = data request
  /\ message r = "Prediction successful. Score of -1 indicates an anomaly."
  /\ ((status r = "Anomaly Detected" /\ prediction_score r = -1)
      \/ status r = "Normal Traffic").
Proof.
  destruct st as [[m | ]]; [ | discriminate ].
  rewrite predict_anomaly_loaded.
  destruct request as [[ | x xs]].
  - cbn. discriminate.
  - rewrite predict_body_cases. cbn [fst snd].
    destruct (predict m [x :: xs]) as [[ | v out] | e].
    + cbn. discriminate.
    + destruct (scalar_eq_int v (-1)) eqn:Hv.
      * rewrite (minus_one_converts v Hv). cbn. intros H. inversion H.
        cbn. auto.
      * destruct (snd (py_int v)) as [n | e].
        -- intros H. inversion H. cbn. auto.
        -- destruct (isinstance_Exception e); discriminate.
    + destruct (isinstance_Exception e); discriminate.
Qed.

(** The converse of the last part fails: the label is chosen before the
    conversion, so the float -1.5 is "Normal Traffic" with score -1. *)
Example normal_label_with_score_minus_one :
  predict_anomaly
    (mkState (Some (Examples.constant_model (NpFloat (-1.5)%float))))
    (mkRequest [2%float; 2%float]) =
  ([ModelPredict [[2%float; 2%float]]],
   Return {| status := "Normal Traffic";
             prediction_score := -1;
             input_data := [2%float; 2%float];
             message :=
               "Prediction successful. Score of -1 indicates an anomaly." |}).
Proof. vm_compute. reflexivity. Qed.

(** ** Status codes *)


(** X8.  A dictionary returned by [health_check] always says "OK", names the
    application and has [model_loaded] true, and is returned only with a
    model loaded: the handler never reports [model_loaded] false, it raises
    503 instead. *)
Theorem health_never_reports_unloaded (st : server_state)
    (tr : list event) (h : HealthResponse) :
  health_check st = (tr, Return h) ->
  model_loaded h = true
  /\ health_status h = "OK"
  /\ service h = "Containerized Anomaly Detection API"
  /\ tr = []
  /\ model st <> None.
Proof.
  destruct st as [[m | ]]; cbn; intros H; inversion H; cbn.
  repeat split; discriminate.
Qed.

(** ** Startup *)

(** X9.  Module initialisation fails to complete exactly when [joblib.load]
    raised something that is not an [Exception]; in every other case it
    prints exactly one line. *)
Theorem startup_aborts_iff (joblib_load : loader) :
  ((exists e, snd (startup joblib_load) = Raise e)
   <-> (exists e, joblib_load MODEL_PATH = Raise e
                  /\ isinstance_Exception e = false))
  /\ ((exists st, snd (startup joblib_load) = Return st)
      -> exists line, fst (startup joblib_load) = [Print line]).
Proof.
  unfold startup.
  destruct (joblib_load MODEL_PATH) as [obj | e].
  - split; [ split | ].
    + intros (e & H). discriminate H.
    + intros (e & H & _). discriminate H.
    + intros _. eexists. reflexivity.
  - destruct e as [cls str].
    destruct cls; cbn;
      (split; [ split | ];
       [ intros (e & H); try discriminate H; eexists; split; reflexivity
       | intros (e & H & He); inversion H; subst e; try discriminate He;
         eexists; reflexivity
       | intros (st & H); try discriminate H; eexists; reflexivity ]).
Qed.

(** X10.  After a startup that completed, the model held is the object the
    load returned ([None] if the load raised), and [GET /health] answers 200
    exactly when the load returned an estimator; a load that returns Python's
    [None] prints the success line and still leaves the service at 503. *)
Theorem health_after_startup (joblib_load : loader)
    (tr : list event) (st : server_state) :
  startup joblib_load = (tr, Return st) ->
  model st = match joblib_load MODEL_PATH with
             | Return obj => obj
             | Raise _ => None
             end
  /\ ((exists h, get_health st = ([], Some (mkResponse 200 (JsonHealth h))))
      <-> (exists m, joblib_load MODEL_PATH = Return (Some m)))
  /\ (joblib_load MODEL_PATH = Return None ->
      tr = [Print "Successfully loaded model from anomaly_detector.pkl"]
      /\ get_health st = ([], Some (mkResponse 503 (JsonDetail DETAIL_HEALTH)))).
Proof.
  intros H.
  assert (Hm : model st = match joblib_load MODEL_PATH with
                          | Return obj => obj
                          | Raise _ => None
                          end).
  { destruct (joblib_load MODEL_PATH) as [obj | e] eqn:Hl.
    - unfold startup in H. rewrite Hl in H. inversion H. reflexivity.
    - exact (ServiceProofs.startup_failed_unset joblib_load e tr st Hl H). }
  split; [ exact Hm | ].
  destruct st as [mo]. cbn [model] in Hm. subst mo.
  destruct (joblib_load MODEL_PATH) as [[m | ] | e] eqn:Hl.
  - split; [ split | discriminate ].
    + intros _. now exists m.
    + intros _. eexists. reflexivity.
  - split; [ split | ].
    + intros (h & Hh). discriminate Hh.
    + intros (m & Hm). discriminate Hm.
    + intros _. unfold startup in H. rewrite Hl in H. inversion H.
      split; reflexivity.
  - split; [ split | discriminate ].
    + intros (h & Hh). discriminate Hh.
    + intros (m & Hm). discriminate Hm.
Qed.

(** ** The theorems on explicit inputs *)

(** X2 on the estimator that answers with an empty array. *)
Lemma empty_prediction_is_500_witness :
  snd (predict_anomaly (mkState (Some ScriptExamples.empty_model))
         (mkRequest [2%float; 2%float])) =
    Raise (HTTPException 500 DETAIL_INTERNAL).
Proof.
  rewrite (empty_prediction_is_500 ScriptExamples.empty_model 2%float
             [2%float] eq_refl).
  reflexivity.
Defined.

(** X3 on an estimator that answers NaN. *)
Lemma nonfinite_score_is_500_witness :
  snd (predict_anomaly (mkState (Some (Examples.constant_model (NpFloat nan))))
         (mkRequest [2%float; 2%float])) =
    Raise (HTTPException 500 DETAIL_INTERNAL).
Proof.
  apply (nonfinite_score_is_500 (Examples.constant_model (NpFloat nan))
           2%float [2%float] nan []);
    vm_compute; reflexivity.
Defined.

(** X6 on the box classifier and the sample [[-5, 5]]. *)
Lemma returned_dictionary_invariant_witness :
  input_data {| status := "Anomaly Detected";
                prediction_score := -1;
                input_data := [(-5)%float; 5%float];
                message :=
                  "Prediction successful. Score of -1 indicates an anomaly." |}
  = [(-5)%float; 5%float].
Proof.
  apply (returned_dictionary_invariant (mkState (Some Examples.box_model))
           (mkRequest [(-5)%float; 5%float])
           [ModelPredict [[(-5)%float; 5%float]]]).
  vm_compute. reflexivity.
Defined.


(** X8 with the box classifier loaded. *)
Lemma health_never_reports_unloaded_witness :
  model (mkState (Some Examples.box_model)) <> None.
Proof.
  apply (health_never_reports_unloaded (mkState (Some Examples.box_model)) []
           {| health_status := "OK";
              service := app_title;
              model_loaded := true;
              health_message :=
                "Service is running and ML model is operational." |}).
  reflexivity.
Defined.

(** X10 on an artifact that unpickles to [None]. *)
Lemma health_after_startup_witness :
  get_health (mkState None) =
    ([], Some (mkResponse 503 (JsonDetail DETAIL_HEALTH))).
Proof.
  destruct (health_after_startup ScriptExamples.pickled_None
              [Print "Successfully loaded model from anomaly_detector.pkl"]
              (mkState None) eq_refl) as (_ & _ & H).
  destruct (H eq_refl) as [_ Hh]. exact Hh.
Defined.

End ServiceExtras.

(** * Further properties of the trainer script *)

Module TrainerExtras.

Import Service Trainer Script Observe.

Section Disk.

Variable fs : Type.
Variable joblib_dump : Model -> string -> fs -> outcome py_error unit * fs.
Variable joblib_load : string -> fs -> outcome py_error (option Model).
Variable str_row : list float -> string.
Variable str_preds : list scalar -> string.
Variable rng_state : Type.
Variable RandomState : Z -> rng_state.
Variable randn : rng_state -> nat -> nat -> matrix * rng_state.
Variable uniform : rng_state -> float -> float -> nat -> nat -> matrix * rng_state.
Variable fit : float -> Z -> matrix -> outcome py_error Model.

(** Saving leaves the disk that [joblib.dump] leaves. *)
Lemma save_and_test_disk (model : Model) (disk : fs) :
  snd (save_and_test fs joblib_dump joblib_load str_row str_preds model disk)
  = snd (joblib_dump model "anomaly_detector.pkl" disk).
Proof.
  unfold save_and_test, Script.MODEL_PATH.
  destruct (joblib_dump model "anomaly_detector.pkl" disk) as [[u | e] disk'];
    reflexivity.
Qed.

(** After a training part that returned, the script's disk is the one the
    saving leaves. *)
Lemma main_disk_after_training (disk : fs) (X : matrix) (model : Model) :
  snd (train rng_state RandomState randn uniform fit) = Return (X, model) ->
  snd (main fs joblib_dump joblib_load str_row str_preds
            rng_state RandomState randn uniform fit disk)
  = snd (save_and_test fs joblib_dump joblib_load str_row str_preds
           model disk).
Proof.
  intros H. unfold main.
  destruct (train rng_state RandomState randn uniform fit) as [tr o].
  cbn [snd] in H. subst o.
  destruct (save_and_test fs joblib_dump joblib_load str_row str_preds
              model disk) as [r d].
  reflexivity.
Qed.

(** X11.  The script touches the disk at most once: when the training part
    fails it ends with that failure, having printed and called the same, and
    leaves the disk as it found it; when the training part returns a model,
    the disk it leaves is the one [joblib.dump] of that model at
    'anomaly_detector.pkl' produced, whatever the quick test does. *)
Theorem script_writes_only_the_artifact (disk : fs) :
  match snd (train rng_state RandomState randn uniform fit) with
  | Raise e =>
      main fs joblib_dump joblib_load str_row str_preds
           rng_state RandomState randn uniform fit disk =
        ((fst (train rng_state RandomState randn uniform fit), Raise e), disk)
  | Return (_, model) =>
      snd (main fs joblib_dump joblib_load str_row str_preds
                rng_state RandomState randn uniform fit disk) =
        snd (joblib_dump model "anomaly_detector.pkl" disk)
  end.
Proof.
  destruct (snd (train rng_state RandomState randn uniform fit))
    as [[X model] | e] eqn:Ht.
  - rewrite (main_disk_after_training disk X model Ht).
    apply save_and_test_disk.
  - unfold main.
    destruct (train rng_state RandomState randn uniform fit) as [tr o].
    cbn [fst snd] in *. subst o. reflexivity.
Qed.

(** X12.  The quick test checks nothing: whatever arrays the reloaded model
    answers on the two probes, the test calls it on (2.1, 2.1) and then on
    (-5, 5), prints one line after each call, and returns. *)
Theorem quick_test_accepts_any_answer (m : Model) (p q : list scalar) :
  predict m [[0x1.0cccccccccccdp+1%float; 0x1.0cccccccccccdp+1%float]]
    = Return p ->
  predict m [[(-5)%float; 5%float]] = Return q ->
  quick_test str_row str_preds (Return (Some m)) =
    ([ModelPredict [[0x1.0cccccccccccdp+1%float; 0x1.0cccccccccccdp+1%float]];
      Print (newline ++ "Prediction for normal point "
             ++ str_row [0x1.0cccccccccccdp+1%float; 0x1.0cccccccccccdp+1%float]
             ++ ": " ++ str_preds p ++ " (1 = Normal)");
      ModelPredict [[(-5)%float; 5%float]];
      Print ("Prediction for anomaly point "
             ++ str_row [(-5)%float; 5%float]
             ++ ": " ++ str_preds q ++ " (-1 = Anomaly)")],
     Return tt).
Proof.
  intros Hp Hq.
  unfold quick_test, obj_predict, model_predict,
    test_point_normal, test_point_anomaly, row0.
  rewrite Hp, Hq. reflexivity.
Qed.

(** X13.  A reload that raises, or that gives Python's [None], ends the
    quick test with an exception before any call of [predict] and before
    any line is printed. *)
Theorem quick_test_needs_a_model (loaded : outcome py_error (option Model)) :
  (forall m, loaded <> Return (Some m)) ->
  exists e,
    quick_test str_row str_preds loaded = ([], Raise e)
    /\ (loaded = Return None -> err_class e = AttributeError)
    /\ (forall e', loaded = Raise e' -> e = e').
Proof.
  intros H. destruct loaded as [[m | ] | e'].
  - exfalso. exact (H m eq_refl).
  - eexists. split; [ reflexivity | split ].
    + reflexivity.
    + discriminate.
  - exists e'. split; [ reflexivity | split ].
    + discriminate.
    + intros e'' E. now inversion E.
Qed.

(** X14.  The trainer and the service name the same file: when the training
    part returned, the dump succeeded and the trainer's own reload of the
    artifact gave the object [obj], the service started on the disk the
    script leaves loads that same [obj] and prints the success line. *)
Theorem service_loads_what_trainer_saved (disk disk' : fs)
    (X : matrix) (model : Model) (obj : option Model) :
  snd (train rng_state RandomState randn uniform fit) = Return (X, model) ->
  joblib_dump model Script.MODEL_PATH disk = (Return tt, disk') ->
  joblib_load Script.MODEL_PATH disk' = Return obj ->
  snd (main fs joblib_dump joblib_load str_row str_preds
            rng_state RandomState randn uniform fit disk) = disk'
  /\ startup (loader_on fs joblib_load disk') =
       ([Print "Successfully loaded model from anomaly_detector.pkl"],
        Return (mkState obj)).
Proof.
  intros Ht Hd Hl. split.
  - rewrite (main_disk_after_training disk X model Ht), save_and_test_disk.
    change "anomaly_detector.pkl" with Script.MODEL_PATH. rewrite Hd.
    reflexivity.
  - unfold startup, loader_on.
    change Service.MODEL_PATH with Script.MODEL_PATH. rewrite Hl. reflexivity.
Qed.

(** X15.  A fit that raises aborts the script at once: with draws of the
    shapes asked for, the script has printed the first line and called [fit]
    once, it ends with the exception of the fit, "Training complete." is not
    printed, and the disk is as it was found. *)
Theorem fit_failure_aborts_before_saving (disk : fs) (e : py_error) :
  let noise := fst (randn (RandomState 42) 1000%nat 2%nat) in
  let scattered :=
    fst (uniform (snd (randn (RandomState 42) 1000%nat 2%nat))
           (-6)%float 6%float 20%nat 2%nat) in
  has_shape noise 1000 2 = true ->
  has_shape scattered 20 2 = true ->
  fit 0x1.47ae147ae147bp-6%float 42 (spec_training_set noise scattered)
    = Raise e ->
  main fs joblib_dump joblib_load str_row str_preds
       rng_state RandomState randn uniform fit disk =
    (([Print "Training Isolation Forest model...";
       ModelFit 0x1.47ae147ae147bp-6%float 42
         (spec_training_set noise scattered)],
      Raise e),
     disk).
Proof.
  intros noise scattered Hn Hs Hf.
  pose proof (TrainerProofs.train_run rng_state RandomState randn uniform fit
                Hn Hs) as Hrun.
  cbv zeta in Hrun. fold noise scattered in Hrun. rewrite Hf in Hrun.
  unfold main. rewrite Hrun. reflexivity.
Qed.

End Disk.

(** ** The theorems on explicit inputs *)

(** X12 on the box classifier. *)
Lemma quick_test_accepts_any_answer_witness :
  prints (fst (quick_test (@ScriptExamples.str_len float)
                 (@ScriptExamples.str_len scalar)
                 (Return (Some Examples.box_model)))) =
    [newline ++ "Prediction for normal point [. .]: [.] (1 = Normal)";
     "Prediction for anomaly point [. .]: [.] (-1 = Anomaly)"].
Proof.
  rewrite (quick_test_accepts_any_answer (@ScriptExamples.str_len float)
             (@ScriptExamples.str_len scalar) Examples.box_model
             [NpInt 1] [NpInt (-1)]);
    vm_compute; reflexivity.
Defined.

(** X13 on an artifact that unpickles to [None]. *)
Lemma quick_test_needs_a_model_witness :
  exists e,
    quick_test (@ScriptExamples.str_len float) (@ScriptExamples.str_len scalar)
      (Return None) = ([], Raise e)
    /\ err_class e = AttributeError.
Proof.
  destruct (quick_test_needs_a_model (@ScriptExamples.str_len float)
              (@ScriptExamples.str_len scalar) (Return None))
    as (e & He & Hc & _).
  - intros m. discriminate.
  - exists e. split; [ exact He | exact (Hc eq_refl) ].
Defined.

(** X14 on the list disk, the counting generator and the fitting routine
    that returns the box classifier. *)
Lemma service_loads_what_trainer_saved_witness :
  startup (loader_on ScriptExamples.disk ScriptExamples.load
             [("anomaly_detector.pkl", Examples.box_model)]) =
    ([Print "Successfully loaded model from anomaly_detector.pkl"],
     Return (mkState (Some Examples.box_model))).
Proof.
  apply (service_loads_what_trainer_saved ScriptExamples.disk
           ScriptExamples.dump ScriptExamples.load
           (@ScriptExamples.str_len float) (@ScriptExamples.str_len scalar)
           nat (fun _ => O) Examples.counting_randn Examples.counting_uniform
           Examples.fit_box
           [] [("anomaly_detector.pkl", Examples.box_model)]
           (spec_training_set (repeat [1%float; 1%float] 1000)
                              (repeat [(-6)%float; (-6)%float] 20))
           Examples.box_model (Some Examples.box_model));
    vm_compute; reflexivity.
Defined.

(** X15 on a fitting routine that refuses its data. *)
Lemma fit_failure_aborts_before_saving_witness :
  snd (main ScriptExamples.disk ScriptExamples.dump ScriptExamples.load
         (@ScriptExamples.str_len float) (@ScriptExamples.str_len scalar)
         nat (fun _ => O) Examples.counting_randn Examples.counting_uniform
         (fun _ _ _ => Raise (mkError ValueError "refused"))
         [("anomaly_detector.pkl", Examples.box_model)])
  = [("anomaly_detector.pkl", Examples.box_model)].
Proof.
  rewrite (fit_failure_aborts_before_saving ScriptExamples.disk
             ScriptExamples.dump ScriptExamples.load
             (@ScriptExamples.str_len float) (@ScriptExamples.str_len scalar)
             nat (fun _ => O) Examples.counting_randn Examples.counting_uniform
             (fun _ _ _ => Raise (mkError ValueError "refused"))
             [("anomaly_detector.pkl", Examples.box_model)]
             (mkError ValueError "refused"));
    vm_compute; reflexivity.
Defined.

End TrainerExtras.
